(** * The Kubernetes process environment of kuber

    A shallow embedding of [environment/kubernetes/environment.go]: the
    [Environment] struct, its constructor [New] and its methods, followed by
    the properties of the state cell, the stream slot and the three pod
    queries ([Exists], [IsRunning], [ExitState]).

    The embedding is sequential: one goroutine calls the methods one after
    the other. The read-write mutex [mu] is part of the struct, because a
    method that panics between [Lock] and [Unlock] leaves it held and every
    later call that wants it waits for ever. [logCallbackMx] is taken and
    released by [defer] around one assignment, so in one goroutine it is
    free at every call; it is left out of the record. *)

From Stdlib Require Import String List ZArith Bool Lia.
Import ListNotations.
Local Open Scope string_scope.
Local Open Scope Z_scope.

(** ** What the package imports *)

(** Types and predicates of the imported packages that the file only passes
    around: Go's [error] values with [apierrors.IsNotFound], the opaque
    handles stored in the struct, and contexts. [context_done ctx] is
    [Some err] when [ctx] is cancelled or past its deadline, [err] being the
    error a request made under [ctx] then fails with;
    [context.Background()] and [context.TODO()] are never done. *)
Class Imports : Type := {
  error : Type;
  IsNotFound : error -> bool;
  remotecommand_Executor : Type;
  rest_Config : Type;
  environment_Configuration : Type;
  remote_ProcessStopConfiguration : Type;
  io_ReadCloser : Type;
  v1_Service : Type;
  context_Context : Type;
  context_done : context_Context -> option error;
  context_Background : context_Context;
  context_TODO : context_Context;
  Background_done : context_done context_Background = None;
  TODO_done : context_done context_TODO = None
}.

(** The string constants of package [environment] and the namespace read
    from [config.Get().Cluster.Namespace]. Their values are declared outside
    this file; nothing below depends on what they are. *)
Class Constants : Type := {
  ProcessOfflineState : string;
  ProcessStartingState : string;
  ProcessRunningState : string;
  ProcessStoppingState : string;
  StateChangeEvent : string;
  Namespace : string
}.

(** The part of [k8s.io/api/core/v1] that the queries read. A pointer that
    may be nil is an [option]; [ExitCode] is an [int32] held in [Z];
    [PodPhase] is a string type and [PodRunning] its constant for a running
    pod. *)
Module v1.

Definition PodPhase := string.
Definition PodRunning : PodPhase := "Running".

Record ContainerStateTerminated : Type := { ExitCode : Z }.
Record ContainerState : Type :=
  { Terminated : option ContainerStateTerminated }.
Record ContainerStatus : Type := { State : ContainerState }.
Record PodStatus : Type :=
  { Phase : PodPhase; ContainerStatuses : list ContainerStatus }.
Record Pod : Type := { Status : PodStatus }.

End v1.

(** Go's conversion [uint32(x)] of a signed integer: the value modulo 2^32. *)
Definition uint32 (x : Z) : Z := x mod 2 ^ 32.

(** [x] fits Go's [int32]. *)
Definition is_int32 (x : Z) : Prop := - 2 ^ 31 <= x < 2 ^ 31.

Section Kubernetes.

Context {imports : Imports} {constants : Constants}.

(** What [Pods(ns).Get] and [Services(ns).List] hand back: a value or an
    error, never both. *)
Inductive Fetched (A : Type) : Type :=
| Found (a : A)
| Failed (err : error).
Arguments Found {A} a.
Arguments Failed {A} err.

(** The backend behind the clientset: its answer to a pod lookup by
    namespace and name, and to a service listing by namespace and label
    selector. *)
Record Clientset : Type := {
  PodsGet : string -> string -> Fetched v1.Pod;
  ServicesList : string -> string -> Fetched (list v1_Service)
}.

(** A request made under [ctx]: it fails with the context's error when the
    context is done, and is the backend's answer otherwise. *)
Definition under {A : Type} (ctx : context_Context) (answer : Fetched A)
    : Fetched A :=
  match context_done ctx with
  | Some err => Failed err
  | None => answer
  end.

(** [cli.CoreV1().Pods(ns).Get(ctx, name, metav1.GetOptions{})]. *)
Definition Get (cli : Clientset) (ctx : context_Context)
    (ns name : string) : Fetched v1.Pod :=
  under ctx (PodsGet cli ns name).

(** [cli.CoreV1().Services(ns).List(ctx, metav1.ListOptions{LabelSelector})]. *)
Definition List_ (cli : Clientset) (ctx : context_Context)
    (ns selector : string) : Fetched (list v1_Service) :=
  under ctx (ServicesList cli ns selector).

(** A [sync.RWMutex]: whether a writer holds it, and how many readers
    do. *)
Record RWMutex : Type := { writer : bool; readers : nat }.

(** The zero value, held by nobody. *)
Definition Unlocked : RWMutex := {| writer := false; readers := 0 |}.

(** Held by one writer. *)
Definition WriteLocked : RWMutex := {| writer := true; readers := 0 |}.

(** Modelled from the spec: [system.AtomicString] is declared outside this
    file. The Atomic State Cell holds one string, [Load] returns it and
    [Store] replaces it. *)
Record AtomicString : Type := { cell : string }.

(** Modelled from the spec: the constructor of [system.AtomicString], a
    cell holding the given string. *)
Definition NewAtomicString (v : string) : AtomicString := {| cell := v |}.

(** Modelled from the spec: [load() -> Status] of the Atomic State Cell. *)
Definition Load (a : AtomicString) : string := cell a.

(** Modelled from the spec: [store(Status)] of the Atomic State Cell. *)
Definition Store (v : string) (_ : AtomicString) : AtomicString :=
  {| cell := v |}.

(** Modelled from the spec: [events.Bus] is declared outside this file.
    The Event Channel offers [publish(topic, payload)] and delivers
    synchronously, so a listener that calls [State()] when the event
    arrives reads the cell as it is at the moment of the publish. The bus
    is the list of its deliveries, oldest first, each with that reading. *)
Record Delivery : Type := {
  topic : string;
  payload : string;
  observed : string
}.
Definition Bus : Type := list Delivery.

(** Modelled from the spec: [events.NewBus], a bus that has delivered
    nothing yet. *)
Definition NewBus : Bus := [].

Record Metadata : Type := {
  Image : string;
  Stop : remote_ProcessStopConfiguration
}.

(** The struct. [meta] and [Configuration] are pointers the caller
    supplies, [stream] is an interface value and [stats] and [logCallback]
    may be nil: all of these are [option]s, [None] being nil. *)
Record Environment : Type := {
  mu : RWMutex;
  Id : string;
  Configuration : option environment_Configuration;
  meta : option Metadata;
  config : rest_Config;
  client : Clientset;
  stream : option remotecommand_Executor;
  stats : option io_ReadCloser;
  emitter : Bus;
  logCallback : option (list Byte.byte -> unit);
  st : AtomicString
}.

Definition with_meta (m : option Metadata) (e : Environment) : Environment :=
  {| mu := mu e; Id := Id e; Configuration := Configuration e; meta := m;
     config := config e; client := client e; stream := stream e;
     stats := stats e; emitter := emitter e;
     logCallback := logCallback e; st := st e |}.

Definition with_stream (s : option remotecommand_Executor)
    (e : Environment) : Environment :=
  {| mu := mu e; Id := Id e; Configuration := Configuration e; meta := meta e;
     config := config e; client := client e; stream := s;
     stats := stats e; emitter := emitter e;
     logCallback := logCallback e; st := st e |}.

Definition with_emitter (b : Bus) (e : Environment) : Environment :=
  {| mu := mu e; Id := Id e; Configuration := Configuration e; meta := meta e;
     config := config e; client := client e; stream := stream e;
     stats := stats e; emitter := b;
     logCallback := logCallback e; st := st e |}.

Definition with_logCallback (f : option (list Byte.byte -> unit))
    (e : Environment) : Environment :=
  {| mu := mu e; Id := Id e; Configuration := Configuration e; meta := meta e;
     config := config e; client := client e; stream := stream e;
     stats := stats e; emitter := emitter e;
     logCallback := f; st := st e |}.

Definition with_mu (m : RWMutex) (e : Environment) : Environment :=
  {| mu := m; Id := Id e; Configuration := Configuration e; meta := meta e;
     config := config e; client := client e; stream := stream e;
     stats := stats e; emitter := emitter e;
     logCallback := logCallback e; st := st e |}.

Definition with_st (a : AtomicString) (e : Environment) : Environment :=
  {| mu := mu e; Id := Id e; Configuration := Configuration e; meta := meta e;
     config := config e; client := client e; stream := stream e;
     stats := stats e; emitter := emitter e;
     logCallback := logCallback e; st := a |}.

(** ** Methods that change the struct

    A method runs on the struct and either returns, with a value and the
    struct as it left it, or panics, with the panic message and the struct
    as it was when the panic was raised, or waits for ever for a mutex
    that is held, with the struct as it was when the wait began. *)
Inductive Outcome (A : Type) : Type :=
| Returned (a : A) (e : Environment)
| Panicked (msg : string) (e : Environment)
| Blocked (e : Environment).
Arguments Returned {A} a e.
Arguments Panicked {A} msg e.
Arguments Blocked {A} e.

Definition M (A : Type) : Type := Environment -> Outcome A.

Definition ret {A : Type} (a : A) : M A := fun e => Returned a e.

Definition bind {A B : Type} (m : M A) (k : A -> M B) : M B :=
  fun e =>
    match m e with
    | Returned a e' => k a e'
    | Panicked msg e' => Panicked msg e'
    | Blocked e' => Blocked e'
    end.

Definition panic {A : Type} (msg : string) : M A :=
  fun e => Panicked msg e.

Definition gets {A : Type} (f : Environment -> A) : M A :=
  fun e => Returned (f e) e.

Definition modify (f : Environment -> Environment) : M unit :=
  fun e => Returned tt (f e).

(** [e.mu.Lock()]: waits while a writer or a reader holds the mutex. *)
Definition Lock : M unit :=
  fun e =>
    if writer (mu e) || negb (readers (mu e) =? 0)%nat
    then Blocked e
    else Returned tt
           (with_mu {| writer := true; readers := readers (mu e) |} e).

(** [e.mu.Unlock()]. *)
Definition Unlock : M unit :=
  modify (fun e =>
    with_mu {| writer := false; readers := readers (mu e) |} e).

(** [e.mu.RLock()]: waits while a writer holds the mutex. *)
Definition RLock : M unit :=
  fun e =>
    if writer (mu e)
    then Blocked e
    else Returned tt
           (with_mu {| writer := false; readers := S (readers (mu e)) |} e).

(** [e.mu.RUnlock()]. *)
Definition RUnlock : M unit :=
  modify (fun e =>
    with_mu {| writer := writer (mu e);
               readers := Nat.pred (readers (mu e)) |} e).

(** [defer d] before [body]: [d] runs when [body] returns and also when it
    panics, and the panic then goes on. *)
Definition defer {A : Type} (d : M unit) (body : M A) : M A :=
  fun e =>
    match body e with
    | Returned a e' =>
        match d e' with
        | Returned _ e'' => Returned a e''
        | Panicked msg e'' => Panicked msg e''
        | Blocked e'' => Blocked e''
        end
    | Panicked msg e' =>
        match d e' with
        | Returned _ e'' => Panicked msg e''
        | Panicked msg' e'' => Panicked msg' e''
        | Blocked e'' => Blocked e''
        end
    | Blocked e' => Blocked e'
    end.

(** The struct a method leaves behind, returned, panicked or waiting. *)
Definition final {A : Type} (o : Outcome A) : Environment :=
  match o with
  | Returned _ e => e
  | Panicked _ e => e
  | Blocked e => e
  end.

End Kubernetes.

Arguments Found {imports A} a.
Arguments Failed {imports A} err.
Arguments Returned {imports A} a e.
Arguments Panicked {imports A} msg e.
Arguments Blocked {imports A} e.

Declare Scope env_scope.
Delimit Scope env_scope with env.
Notation "x <- m ;; k" := (bind m (fun x => k))
  (at level 61, m at next level, right associativity) : env_scope.
Notation "m ;; k" := (bind m (fun _ => k))
  (at level 61, right associativity) : env_scope.

Section Methods.

Context {imports : Imports} {constants : Constants}.
Local Open Scope env_scope.

(** What [environment.Cluster()] hands to [New]: a rest configuration and
    a clientset, or an error. *)
Inductive ClusterResult : Type :=
| ClusterOk (cfg : rest_Config) (cli : Clientset)
| ClusterErr (err : error).

(** [New]: a Go pair, the pointer or nil and the error or nil. *)
Definition New (id : string) (m : option Metadata)
    (c : option environment_Configuration) (cluster : ClusterResult)
    : option Environment * option error :=
  match cluster with
  | ClusterErr err => (None, Some err)
  | ClusterOk cfg cli =>
      (Some {| mu := Unlocked;
               Id := id;
               Configuration := c;
               meta := m;
               config := cfg;
               client := cli;
               stream := None;
               stats := None;
               emitter := NewBus;
               logCallback := None;
               st := NewAtomicString ProcessOfflineState |},
       None)
  end.

Definition GetServiceDetails (e : Environment) : option (list v1_Service) :=
  match List_ (client e) context_TODO Namespace ("uuid=" ++ Id e) with
  | Failed _ => None
  | Found items => Some items
  end.

Definition Type_ (_ : Environment) : string := "docker".

Definition SetStream (s : option remotecommand_Executor) : M unit :=
  Lock ;;
  modify (with_stream s) ;;
  Unlock.

Definition IsAttached : M bool :=
  RLock ;;
  defer RUnlock
    (gets (fun e => match stream e with
                    | Some _ => true
                    | None => false
                    end)).

Definition Events (e : Environment) : Bus := emitter e.

Definition Exists (e : Environment) : bool * option error :=
  match Get (client e) context_Background Namespace (Id e) with
  | Failed err =>
      if IsNotFound err then (false, None) else (false, Some err)
  | Found _ => (true, None)
  end.

Definition IsRunning (ctx : context_Context) (e : Environment)
    : bool * option error :=
  match Get (client e) ctx Namespace (Id e) with
  | Failed err => (false, Some err)
  | Found c =>
      if (v1.Phase (v1.Status c) =? v1.PodRunning)%string
      then (true, None)
      else (false, None)
  end.

Definition ExitState (e : Environment) : Z * bool * option error :=
  match Get (client e) context_Background Namespace (Id e) with
  | Failed err =>
      if IsNotFound err then (1, false, None) else (0, false, Some err)
  | Found c =>
      match v1.ContainerStatuses (v1.Status c) with
      | cs0 :: _ =>
          match v1.Terminated (v1.State cs0) with
          | Some t =>
              if v1.ExitCode t =? 137
              then (137, true, None)
              else (uint32 (v1.ExitCode t), false, None)
          | None => (1, false, None)
          end
      | [] => (1, false, None)
      end
  end.

Definition Config : M (option environment_Configuration) :=
  RLock ;;
  defer RUnlock (gets Configuration).

(** Go's message for a write through a nil pointer. *)
Definition nil_dereference : string :=
  "runtime error: invalid memory address or nil pointer dereference".

Definition SetStopConfiguration (c : remote_ProcessStopConfiguration)
    : M unit :=
  Lock ;;
  (m <- gets meta ;;
   match m with
   | None => panic nil_dereference
   | Some md =>
       modify (with_meta (Some {| Image := Image md; Stop := c |}))
   end) ;;
  Unlock.

Definition SetImage (i : string) : M unit :=
  Lock ;;
  defer Unlock
    (m <- gets meta ;;
     match m with
     | None => panic nil_dereference
     | Some md =>
         modify (with_meta (Some {| Image := i; Stop := Stop md |}))
     end).

Definition State (e : Environment) : string := Load (st e).

(** Modelled from the spec: [Publish] of [events.Bus], called by the file
    as [e.Events().Publish(topic, payload)]. Seen from the struct it is one
    more delivery on the bus, whose listener reads [State()] as it is at
    that moment. *)
Definition Publish (tp pl : string) : M unit :=
  modify (fun e =>
    with_emitter
      (Events e ++
         [{| topic := tp; payload := pl; observed := State e |}])%list
      e).

Definition invalid_state_message (state : string) : string :=
  "invalid server state received: " ++ state.

Definition SetState (state : string) : M unit :=
  if negb (state =? ProcessOfflineState)%string &&
     negb (state =? ProcessStartingState)%string &&
     negb (state =? ProcessRunningState)%string &&
     negb (state =? ProcessStoppingState)%string
  then panic (invalid_state_message state)
  else
    cur <- gets State ;;
    if negb (cur =? state)%string
    then
      modify (fun e => with_st (Store state (st e)) e) ;;
      Publish StateChangeEvent state
    else ret tt.

Definition SetLogCallback (f : option (list Byte.byte -> unit)) : M unit :=
  modify (with_logCallback f).

(** ** The controller as a transition system *)

(** One call of a method of the file. *)
Inductive Call : Type :=
| CallGetServiceDetails
| CallType
| CallSetStream (s : option remotecommand_Executor)
| CallIsAttached
| CallEvents
| CallExists
| CallIsRunning (ctx : context_Context)
| CallExitState
| CallConfig
| CallSetStopConfiguration (c : remote_ProcessStopConfiguration)
| CallSetImage (i : string)
| CallState
| CallSetState (state : string)
| CallSetLogCallback (f : option (list Byte.byte -> unit)).

(** A query reads the struct, its result goes to the caller. *)
Definition query {A : Type} (f : Environment -> A) : M unit :=
  _ <- gets f ;; ret tt.

(** A call whose result goes to the caller. *)
Definition call {A : Type} (m : M A) : M unit :=
  _ <- m ;; ret tt.

Definition run (c : Call) : M unit :=
  match c with
  | CallGetServiceDetails => query GetServiceDetails
  | CallType => query Type_
  | CallSetStream s => SetStream s
  | CallIsAttached => call IsAttached
  | CallEvents => query Events
  | CallExists => query Exists
  | CallIsRunning ctx => query (IsRunning ctx)
  | CallExitState => query ExitState
  | CallConfig => call Config
  | CallSetStopConfiguration c => SetStopConfiguration c
  | CallSetImage i => SetImage i
  | CallState => query State
  | CallSetState s => SetState s
  | CallSetLogCallback f => SetLogCallback f
  end.

(** The structs a program can hold: what [New] returned, and what any
    sequence of calls made of it. A panic that the caller recovers from
    leaves the struct as it was when the panic was raised; a call that
    waits for ever leaves it as it was when the wait began. *)
Inductive reachable : Environment -> Prop :=
| reachable_New id m c cluster e err :
    New id m c cluster = (Some e, err) -> reachable e
| reachable_call e c :
    reachable e -> reachable (final (run c e)).

(** The four values of the Status enumeration. *)
Definition statuses : list string :=
  [ProcessOfflineState; ProcessStartingState;
   ProcessRunningState; ProcessStoppingState].

Definition is_status (s : string) : Prop := In s statuses.

End Methods.

Section Sequences.

Context {imports : Imports} {constants : Constants}.

(** The struct after a sequence of calls, first call first. *)
Fixpoint runs (cs : list Call) (e : Environment) : Environment :=
  match cs with
  | [] => e
  | c :: cs' => runs cs' (final (run c e))
  end.


(** No container status of the pod carries a termination record. *)
Definition no_terminated_data (c : v1.Pod) : Prop :=
  Forall (fun cs => v1.Terminated (v1.State cs) = None)
         (v1.ContainerStatuses (v1.Status c)).

(** The lookup of the struct's pod under [ctx], as [IsRunning] makes it. *)
Definition lookup_in (ctx : context_Context) (e : Environment)
    : Fetched v1.Pod :=
  Get (client e) ctx Namespace (Id e).

(** The lookup of the struct's pod under [context.Background()], as [Exists]
    and [ExitState] make it. *)
Definition lookup (e : Environment) : Fetched v1.Pod :=
  lookup_in context_Background e.

(** Every exit code the answer carries fits the [int32] that
    [ContainerStateTerminated.ExitCode] is declared as. *)
Definition exit_codes_int32 (r : Fetched v1.Pod) : Prop :=
  match r with
  | Found c =>
      Forall (fun cs =>
                match v1.Terminated (v1.State cs) with
                | Some t => is_int32 (v1.ExitCode t)
                | None => True
                end)
             (v1.ContainerStatuses (v1.Status c))
  | Failed _ => True
  end.

(** The three components of what [ExitState] returns. *)
Definition exit_code (r : Z * bool * option error) : Z := fst (fst r).
Definition oom_killed (r : Z * bool * option error) : bool := snd (fst r).
Definition exit_error (r : Z * bool * option error) : option error := snd r.

(** The payloads the bus has delivered, oldest first. *)
Definition history (e : Environment) : list string :=
  map payload (Events e).

(** A delivery as [SetState] makes them: a state change carrying one of the
    four statuses, which is also what its listener reads from the cell. *)
Definition state_change (d : Delivery) : Prop :=
  topic d = StateChangeEvent /\
  is_status (payload d) /\
  observed d = payload d.

(** No element of [l] repeats the one before it, [prev] standing before the
    first. *)
Fixpoint no_stutter (prev : string) (l : list string) : Prop :=
  match l with
  | [] => True
  | x :: l' => prev <> x /\ no_stutter x l'
  end.

(** The bus and the cell agree: every delivery is a state change, the cell
    holds the last payload, or Offline when there is none, and no payload
    repeats the one before it. *)
Definition bus_follows_cell (e : Environment) : Prop :=
  Forall state_change (Events e) /\
  State e = last (history e) ProcessOfflineState /\
  no_stutter ProcessOfflineState (history e).

(** The number of [SetState] calls in a sequence. *)
Fixpoint count_SetState (cs : list Call) : nat :=
  match cs with
  | [] => 0%nat
  | CallSetState _ :: cs' => S (count_SetState cs')
  | _ :: cs' => count_SetState cs'
  end.

(** Whether a string is one of the four statuses, as the guard of
    [SetState] decides it. *)
Definition is_status_b (s : string) : bool :=
  existsb (String.eqb s) statuses.

(** The payloads a sequence of calls publishes when the cell holds [cur] at
    its start: the valid arguments of its [SetState] calls, without those
    that repeat the status stored at the time of the call. *)
Fixpoint published (cur : string) (cs : list Call) : list string :=
  match cs with
  | [] => []
  | CallSetState s :: cs' =>
      if is_status_b s && negb (cur =? s)%string
      then s :: published s cs'
      else published cur cs'
  | _ :: cs' => published cur cs'
  end.

(** Whether a call is one of the two setters of the metadata. *)
Definition sets_meta (c : Call) : bool :=
  match c with
  | CallSetStopConfiguration _ | CallSetImage _ => true
  | _ => false
  end.

(** Whether a call is [SetState]. *)
Definition sets_state (c : Call) : bool :=
  match c with
  | CallSetState _ => true
  | _ => false
  end.

(** Whether a call is one of the five methods that take [mu]. *)
Definition takes_mu (c : Call) : bool :=
  match c with
  | CallSetStream _ | CallIsAttached | CallConfig
  | CallSetStopConfiguration _ | CallSetImage _ => true
  | _ => false
  end.


(** Whether a call is [SetLogCallback]. *)
Definition sets_logCallback (c : Call) : bool :=
  match c with
  | CallSetLogCallback _ => true
  | _ => false
  end.

End Sequences.

(** ** A stub backend for concrete runs *)
Module Stub.

Inductive api_error : Type := NotFound | Timeout | Canceled.

Definition imports : Imports :=
  {| error := api_error;
     IsNotFound := fun err =>
       match err with NotFound => true | _ => false end;
     remotecommand_Executor := nat;
     rest_Config := unit;
     environment_Configuration := unit;
     remote_ProcessStopConfiguration := unit;
     io_ReadCloser := unit;
     v1_Service := unit;
     context_Context := option api_error;
     context_done := fun ctx => ctx;
     context_Background := None;
     context_TODO := None;
     Background_done := eq_refl;
     TODO_done := eq_refl |}.

Definition constants : Constants :=
  {| ProcessOfflineState := "offline";
     ProcessStartingState := "starting";
     ProcessRunningState := "running";
     ProcessStoppingState := "stopping";
     StateChangeEvent := "state change";
     Namespace := "default" |}.

#[local] Existing Instance imports.
#[local] Existing Instance constants.

(** A clientset that answers every pod lookup with [r]. *)
Definition clientset (r : Fetched v1.Pod) : Clientset :=
  {| PodsGet := fun _ _ => r;
     ServicesList := fun _ _ => Found [] |}.

(** A context that is not done, and one that was cancelled. *)
Definition live : context_Context := None.
Definition cancelled : context_Context := Some Canceled.

Definition not_found : Fetched v1.Pod := Failed NotFound.
Definition timed_out : Fetched v1.Pod := Failed Timeout.

Definition pod (phase : string) (cs : list v1.ContainerStatus) : v1.Pod :=
  {| v1.Status := {| v1.Phase := phase; v1.ContainerStatuses := cs |} |}.

Definition running : v1.ContainerStatus :=
  {| v1.State := {| v1.Terminated := None |} |}.

Definition exited (code : Z) : v1.ContainerStatus :=
  {| v1.State :=
       {| v1.Terminated := Some {| v1.ExitCode := code |} |} |}.

(** A struct whose cell holds [s], over a backend answering [r]. *)
Definition env (s : string) (r : Fetched v1.Pod) : Environment :=
  {| mu := Unlocked;
     Id := "7e2c";
     Configuration := None;
     meta := None;
     config := tt;
     client := clientset r;
     stream := None;
     stats := None;
     emitter := NewBus;
     logCallback := None;
     st := NewAtomicString s |}.

(** A cluster that hands out a clientset answering [r]. *)
Definition cluster (r : Fetched v1.Pod) : ClusterResult :=
  ClusterOk tt (clientset r).

(** Two sequences of calls: a start that also passes an invalid status, and
    an attach followed by a detach. *)
Definition start_up : list Call :=
  [CallSetState "starting"; CallSetStream (Some 4%nat);
   CallSetState "paused"; CallSetState "running"].



(** The handle the two sequences attach. *)
Definition handle : remotecommand_Executor := 4%nat.

(** The one stop configuration of the stub. *)
Definition stop : remote_ProcessStopConfiguration := tt.

(** A struct with metadata, over a backend answering [r]. *)
Definition env_with_meta (image : string) (r : Fetched v1.Pod)
    : Environment :=
  with_meta (Some {| Image := image; Stop := stop |}) (env "offline" r).

(** A start, a stop and a second start, with a repeated [SetState]. *)
Definition restart : list Call :=
  [CallSetState "starting"; CallSetState "running"; CallSetState "running";
   CallExists; CallSetState "stopping"; CallSetState "offline";
   CallSetState "starting"].

End Stub.

(** * Properties *)

Section StateCell.

Context {imports : Imports} {constants : Constants}.

Lemma guard_of_status (s : string) :
  is_status s ->
  negb (s =? ProcessOfflineState)%string &&
  negb (s =? ProcessStartingState)%string &&
  negb (s =? ProcessRunningState)%string &&
  negb (s =? ProcessStoppingState)%string = false.
Proof.
  unfold is_status, statuses. simpl.
  intros [H | [H | [H | [H | []]]]]; subst s;
    rewrite String.eqb_refl; simpl;
    rewrite ?andb_false_r; reflexivity.
Qed.

Lemma guard_of_other (s : string) :
  ~ is_status s ->
  negb (s =? ProcessOfflineState)%string &&
  negb (s =? ProcessStartingState)%string &&
  negb (s =? ProcessRunningState)%string &&
  negb (s =? ProcessStoppingState)%string = true.
Proof.
  unfold is_status, statuses. simpl. intros H.
  repeat match goal with
  | |- context [(s =? ?c)%string] =>
      destruct (String.eqb_spec s c) as [E | _];
        [exfalso; apply H; rewrite <- E; tauto |]
  end.
  reflexivity.
Qed.

Lemma is_status_dec (s : string) : {is_status s} + {~ is_status s}.
Proof. apply (in_dec string_dec). Qed.

(** [SetState] on a status other than the stored one is the store followed
    by the publish. *)
Lemma SetState_unfold_changed (s : string) (e : Environment) :
  is_status s -> State e <> s ->
  SetState s e = Publish StateChangeEvent s (with_st (Store s (st e)) e).
Proof.
  intros Hs Hne. unfold SetState. rewrite (guard_of_status s Hs).
  unfold bind, gets, modify.
  destruct (String.eqb_spec (State e) s) as [E | _]; [contradiction |].
  reflexivity.
Qed.

(** C1. For a status [s] other than the stored one, [SetState s] returns
    after the store of [s] into the cell followed by the publish, run on
    the struct that already holds [s]: the bus gains exactly one delivery,
    of topic [StateChangeEvent] and payload [s], whose listener reads [s]
    from [State()], and [State()] after the call is [s]. *)
Theorem SetState_changed (s : string) (e : Environment) :
  is_status s -> State e <> s ->
  SetState s e = Publish StateChangeEvent s (with_st (Store s (st e)) e) /\
  exists e',
    SetState s e = Returned tt e' /\
    State e' = s /\
    Events e' =
      (Events e ++
         [{| topic := StateChangeEvent; payload := s; observed := s |}])%list /\
    length (Events e') = S (length (Events e)).
Proof.
  intros Hs Hne. split; [now apply SetState_unfold_changed |].
  rewrite (SetState_unfold_changed s e Hs Hne).
  eexists. split; [reflexivity |]. cbn.
  repeat split. unfold Events. rewrite length_app. cbn. lia.
Qed.

(** C2. When the cell already holds the status [s], [SetState s] returns
    with the struct as it was: nothing is published and the stored status
    is unchanged. *)
Theorem SetState_same (s : string) (e : Environment) :
  is_status s -> State e = s ->
  SetState s e = Returned tt e /\
  Events (final (SetState s e)) = Events e /\
  State (final (SetState s e)) = State e.
Proof.
  intros Hs He.
  assert (H : SetState s e = Returned tt e).
  { unfold SetState. rewrite (guard_of_status s Hs).
    unfold bind, gets, ret. rewrite He, String.eqb_refl. reflexivity. }
  rewrite H. repeat split.
Qed.

(** C3. For a string [s] outside the four statuses, [SetState s] panics
    with the message naming [s]; it does not return, and the struct at the
    panic is the one it was called on: nothing stored, nothing
    published. *)
Theorem SetState_invalid_panics (s : string) (e : Environment) :
  ~ is_status s ->
  SetState s e = Panicked (invalid_state_message s) e /\
  (forall e', SetState s e <> Returned tt e').
Proof.
  intros Hs.
  assert (H : SetState s e = Panicked (invalid_state_message s) e).
  { unfold SetState. rewrite (guard_of_other s Hs). reflexivity. }
  split; [exact H |]. intros e'. rewrite H. discriminate.
Qed.

End StateCell.

Lemma SetState_changed_witness :
  @SetState Stub.imports Stub.constants "running"
            (Stub.env "starting" Stub.not_found)
  = Returned tt
      (with_emitter
         [{| topic := "state change"; payload := "running";
             observed := "running" |}]
         (Stub.env "running" Stub.not_found)).
Proof.
  destruct (@SetState_changed Stub.imports Stub.constants "running"
              (Stub.env "starting" Stub.not_found))
    as [H _].
  - unfold is_status, statuses. simpl. tauto.
  - unfold State, Load. simpl. discriminate.
  - rewrite H. reflexivity.
Defined.

Lemma SetState_same_witness :
  @SetState Stub.imports Stub.constants "running"
            (Stub.env "running" Stub.not_found)
  = Returned tt (Stub.env "running" Stub.not_found).
Proof.
  apply (@SetState_same Stub.imports Stub.constants "running"
           (Stub.env "running" Stub.not_found)).
  - unfold is_status, statuses. simpl. tauto.
  - reflexivity.
Defined.

Lemma SetState_invalid_panics_witness :
  @SetState Stub.imports Stub.constants "paused"
            (Stub.env "running" Stub.not_found)
  = Panicked "invalid server state received: paused"
             (Stub.env "running" Stub.not_found).
Proof.
  apply (@SetState_invalid_panics Stub.imports Stub.constants "paused"
           (Stub.env "running" Stub.not_found)).
  unfold is_status, statuses. simpl.
  intros [H | [H | [H | [H | []]]]]; discriminate H.
Defined.

(** ** The conversion of the exit code *)

Lemma uint32_range (x : Z) : 0 <= uint32 x < 2 ^ 32.
Proof. unfold uint32. apply Z.mod_pos_bound. lia. Qed.

Lemma uint32_nonneg (x : Z) : is_int32 x -> 0 <= x -> uint32 x = x.
Proof.
  unfold is_int32, uint32. intros H H0. apply Z.mod_small. lia.
Qed.

Lemma uint32_neg (x : Z) : is_int32 x -> x < 0 -> uint32 x = x + 2 ^ 32.
Proof.
  unfold is_int32, uint32. intros H H0.
  symmetry. apply (Z.mod_unique x (2 ^ 32) (-1) (x + 2 ^ 32)); lia.
Qed.

Section Queries.

Context {imports : Imports} {constants : Constants}.

(** C4. On a located pod whose first container status carries a
    termination record, [ExitState] returns [(137, true, nil)] when the
    recorded exit code is 137 and otherwise [(code, false, nil)], [code]
    being the recorded [int32] converted to [uint32]: a value below 2^32,
    equal to the recorded one when that is not negative and 2^32 above it
    when it is. *)
Theorem ExitState_terminated (e : Environment) (c : v1.Pod)
    (cs0 : v1.ContainerStatus) (rest : list v1.ContainerStatus)
    (t : v1.ContainerStateTerminated) :
  lookup e = Found c ->
  v1.ContainerStatuses (v1.Status c) = cs0 :: rest ->
  v1.Terminated (v1.State cs0) = Some t ->
  (v1.ExitCode t = 137 -> ExitState e = (137, true, None)) /\
  (v1.ExitCode t <> 137 ->
     ExitState e = (uint32 (v1.ExitCode t), false, None) /\
     0 <= uint32 (v1.ExitCode t) < 2 ^ 32 /\
     (is_int32 (v1.ExitCode t) -> 0 <= v1.ExitCode t ->
        uint32 (v1.ExitCode t) = v1.ExitCode t) /\
     (is_int32 (v1.ExitCode t) -> v1.ExitCode t < 0 ->
        uint32 (v1.ExitCode t) = v1.ExitCode t + 2 ^ 32)).
Proof.
  unfold lookup, lookup_in. intros Hget Hcs Ht.
  unfold ExitState. rewrite Hget, Hcs, Ht. split.
  - intros ->. reflexivity.
  - intros Hne.
    destruct (Z.eqb_spec (v1.ExitCode t) 137) as [E | _];
      [contradiction |].
    split; [reflexivity |].
    split; [apply uint32_range |].
    split; [apply uint32_nonneg | apply uint32_neg].
Qed.

(** C5. [ExitState] returns [(1, false, nil)] when the lookup fails with a
    not-found error, and when the pod is located but none of its container
    statuses carries a termination record, whatever its phase and also
    when it has no container status at all. *)
Theorem ExitState_defaults (e : Environment) :
  (exists err, lookup e = Failed err /\ IsNotFound err = true) \/
  (exists c, lookup e = Found c /\ no_terminated_data c) ->
  ExitState e = (1, false, None).
Proof.
  unfold lookup, lookup_in, no_terminated_data, ExitState.
  intros [[err [Hget Hnf]] | [c [Hget Hnone]]]; rewrite Hget.
  - rewrite Hnf. reflexivity.
  - destruct (v1.ContainerStatuses (v1.Status c)) as [| cs0 rest];
      [reflexivity |].
    inversion Hnone as [| ? ? H0 _]; subst. rewrite H0. reflexivity.
Qed.

(** The default of [ExitState] only needs the first container status to be
    without a termination record; the statuses after it are not read. *)
Lemma ExitState_first_status (e : Environment) (c : v1.Pod)
    (cs0 : v1.ContainerStatus) (rest : list v1.ContainerStatus) :
  lookup e = Found c ->
  v1.ContainerStatuses (v1.Status c) = cs0 :: rest ->
  v1.Terminated (v1.State cs0) = None ->
  ExitState e = (1, false, None).
Proof.
  unfold lookup, lookup_in, ExitState. intros -> -> ->. reflexivity.
Qed.

(** C6. [Exists] returns [(false, nil)] when the lookup fails with a
    not-found error, [(false, err)] with the lookup's own error when it
    fails otherwise, and [(true, nil)] when the lookup succeeds. *)
Theorem Exists_cases (e : Environment) :
  (forall err, lookup e = Failed err -> IsNotFound err = true ->
     Exists e = (false, None)) /\
  (forall err, lookup e = Failed err -> IsNotFound err = false ->
     Exists e = (false, Some err)) /\
  (forall c, lookup e = Found c -> Exists e = (true, None)).
Proof.
  unfold lookup, lookup_in, Exists. repeat split.
  - intros err -> ->. reflexivity.
  - intros err -> ->. reflexivity.
  - intros c ->. reflexivity.
Qed.

(** C7. [IsRunning] returns [(true, nil)] exactly when its lookup, made
    under the caller's [ctx], succeeds with a pod in phase [Running]; when
    the lookup fails with any error, not-found, the error of a done context
    or other, it returns [(false, err)] with that error; a pod in another
    phase gives [(false, nil)]. Under a context that is not done the lookup
    is the one [Exists] and [ExitState] make. *)
Theorem IsRunning_cases (ctx : context_Context) (e : Environment) :
  (IsRunning ctx e = (true, None) <->
     exists c, lookup_in ctx e = Found c /\
               v1.Phase (v1.Status c) = v1.PodRunning) /\
  (forall err, lookup_in ctx e = Failed err ->
     IsRunning ctx e = (false, Some err)) /\
  (forall c, lookup_in ctx e = Found c ->
     v1.Phase (v1.Status c) <> v1.PodRunning ->
     IsRunning ctx e = (false, None)) /\
  (context_done ctx = None -> lookup_in ctx e = lookup e) /\
  (forall err, context_done ctx = Some err ->
     IsRunning ctx e = (false, Some err)).
Proof.
  assert (Hlive : context_done ctx = None -> lookup_in ctx e = lookup e).
  { intros H. unfold lookup, lookup_in, Get, under.
    rewrite H, Background_done. reflexivity. }
  assert (Hdone : forall err, context_done ctx = Some err ->
                  IsRunning ctx e = (false, Some err)).
  { intros err H. unfold IsRunning, Get, under. rewrite H. reflexivity. }
  unfold lookup_in, IsRunning in *.
  destruct (Get (client e) ctx Namespace (Id e)) as [c | err].
  - destruct (String.eqb_spec (v1.Phase (v1.Status c)) v1.PodRunning)
      as [E | N].
    + repeat split; try assumption.
      * intros _. exists c. split; [reflexivity | exact E].
      * intros err H. discriminate H.
      * intros c' H N. injection H as <-. contradiction.
    + repeat split; try assumption.
      * intros H. discriminate H.
      * intros [c' [H E]]. injection H as <-. contradiction.
      * intros err H. discriminate H.
  - repeat split; try assumption.
    + intros H. discriminate H.
    + intros [c [H _]]. discriminate H.
    + intros err' H. injection H as <-. reflexivity.
    + intros c H. discriminate H.
Qed.

(** C10. When the lookup of [ExitState] fails with an error that is not a
    not-found error, the result is [(0, false, err)] with that error: its
    exit code is 0, where the not-found and no-data defaults give 1. *)
Theorem ExitState_error (e : Environment) (err : error) :
  lookup e = Failed err -> IsNotFound err = false ->
  ExitState e = (0, false, Some err) /\
  fst (fst (ExitState e)) <> 1.
Proof.
  unfold lookup, lookup_in. intros Hget Hnf.
  assert (H : ExitState e = (0, false, Some err)).
  { unfold ExitState. rewrite Hget, Hnf. reflexivity. }
  rewrite H. split; [reflexivity | discriminate].
Qed.

End Queries.

Lemma ExitState_terminated_witness :
  @ExitState Stub.imports Stub.constants
    (Stub.env "running" (Found (Stub.pod "Failed" [Stub.exited 137])))
  = (137, true, None) /\
  @ExitState Stub.imports Stub.constants
    (Stub.env "running" (Found (Stub.pod "Succeeded" [Stub.exited 0])))
  = (0, false, None) /\
  @ExitState Stub.imports Stub.constants
    (Stub.env "running" (Found (Stub.pod "Failed" [Stub.exited (-1)])))
  = (4294967295, false, None).
Proof.
  split; [| split].
  - apply (@ExitState_terminated Stub.imports Stub.constants
             (Stub.env "running" (Found (Stub.pod "Failed" [Stub.exited 137])))
             (Stub.pod "Failed" [Stub.exited 137]) (Stub.exited 137) []
             {| v1.ExitCode := 137 |});
      reflexivity.
  - apply (@ExitState_terminated Stub.imports Stub.constants
             (Stub.env "running"
                (Found (Stub.pod "Succeeded" [Stub.exited 0])))
             (Stub.pod "Succeeded" [Stub.exited 0]) (Stub.exited 0) []
             {| v1.ExitCode := 0 |});
      [reflexivity | reflexivity | reflexivity | discriminate].
  - apply (@ExitState_terminated Stub.imports Stub.constants
             (Stub.env "running"
                (Found (Stub.pod "Failed" [Stub.exited (-1)])))
             (Stub.pod "Failed" [Stub.exited (-1)]) (Stub.exited (-1)) []
             {| v1.ExitCode := -1 |});
      [reflexivity | reflexivity | reflexivity | discriminate].
Defined.

Lemma ExitState_defaults_witness :
  @ExitState Stub.imports Stub.constants (Stub.env "running" Stub.not_found)
  = (1, false, None) /\
  @ExitState Stub.imports Stub.constants
    (Stub.env "running" (Found (Stub.pod "Running" [Stub.running])))
  = (1, false, None) /\
  @ExitState Stub.imports Stub.constants
    (Stub.env "running" (Found (Stub.pod "Pending" [])))
  = (1, false, None).
Proof.
  split; [| split];
    apply (@ExitState_defaults Stub.imports Stub.constants).
  - left. exists Stub.NotFound. split; reflexivity.
  - right. exists (Stub.pod "Running" [Stub.running]).
    split; [reflexivity |].
    unfold no_terminated_data. simpl. repeat constructor.
  - right. exists (Stub.pod "Pending" []).
    split; [reflexivity |].
    unfold no_terminated_data. simpl. constructor.
Defined.

Lemma Exists_cases_witness :
  @Exists Stub.imports Stub.constants (Stub.env "offline" Stub.not_found)
  = (false, None) /\
  @Exists Stub.imports Stub.constants (Stub.env "offline" Stub.timed_out)
  = (false, Some Stub.Timeout) /\
  @Exists Stub.imports Stub.constants
    (Stub.env "offline" (Found (Stub.pod "Pending" [])))
  = (true, None).
Proof.
  split; [| split].
  - apply (proj1 (@Exists_cases Stub.imports Stub.constants
                    (Stub.env "offline" Stub.not_found))
             Stub.NotFound); reflexivity.
  - apply (proj1 (proj2 (@Exists_cases Stub.imports Stub.constants
                           (Stub.env "offline" Stub.timed_out)))
             Stub.Timeout); reflexivity.
  - apply (proj2 (proj2 (@Exists_cases Stub.imports Stub.constants
                           (Stub.env "offline"
                              (Found (Stub.pod "Pending" [])))))
             (Stub.pod "Pending" [])); reflexivity.
Defined.

Lemma IsRunning_cases_witness :
  @IsRunning Stub.imports Stub.constants Stub.live
    (Stub.env "running" (Found (Stub.pod "Running" [Stub.running])))
  = (true, None) /\
  @IsRunning Stub.imports Stub.constants Stub.live
    (Stub.env "running" Stub.not_found)
  = (false, Some Stub.NotFound) /\
  @IsRunning Stub.imports Stub.constants Stub.cancelled
    (Stub.env "running" (Found (Stub.pod "Running" [Stub.running])))
  = (false, Some Stub.Canceled) /\
  @IsRunning Stub.imports Stub.constants Stub.live
    (Stub.env "running" (Found (Stub.pod "Pending" [])))
  = (false, None).
Proof.
  split; [| split; [| split]].
  - apply (proj1 (@IsRunning_cases Stub.imports Stub.constants Stub.live
                    (Stub.env "running"
                       (Found (Stub.pod "Running" [Stub.running]))))).
    exists (Stub.pod "Running" [Stub.running]). split; reflexivity.
  - apply (proj1 (proj2 (@IsRunning_cases Stub.imports Stub.constants
                           Stub.live (Stub.env "running" Stub.not_found)))
             Stub.NotFound); reflexivity.
  - apply (proj1 (proj2 (@IsRunning_cases Stub.imports Stub.constants
                           Stub.cancelled
                           (Stub.env "running"
                              (Found (Stub.pod "Running" [Stub.running])))))
             Stub.Canceled); reflexivity.
  - apply (proj1 (proj2 (proj2
                    (@IsRunning_cases Stub.imports Stub.constants
                       Stub.live
                       (Stub.env "running"
                          (Found (Stub.pod "Pending" []))))))
             (Stub.pod "Pending" [])); [reflexivity | discriminate].
Defined.

Lemma ExitState_error_witness :
  @ExitState Stub.imports Stub.constants (Stub.env "running" Stub.timed_out)
  = (0, false, Some Stub.Timeout).
Proof.
  apply (@ExitState_error Stub.imports Stub.constants
           (Stub.env "running" Stub.timed_out) Stub.Timeout);
    reflexivity.
Defined.

(** Case analysis of a method that takes [mu], on the state of the mutex
    of [e] and on its metadata pointer. *)
Ltac unfold_locked :=
  unfold call, query, SetStream, SetImage, SetStopConfiguration,
    SetLogCallback, IsAttached, Config, Lock, Unlock, RLock, RUnlock,
    defer, bind, gets, modify, panic, ret.

Ltac locks e :=
  unfold_locked;
  let E := fresh "Hmu" in
  destruct (mu e) as [[|] [| ?]] eqn:E; cbn; rewrite ?E;
  try reflexivity; try assumption;
  destruct (meta e); cbn; rewrite ?E;
  try reflexivity; try assumption.

Section Lifecycle.

Context {imports : Imports} {constants : Constants}.

Lemma ProcessOfflineState_is_status : is_status ProcessOfflineState.
Proof. unfold is_status, statuses. simpl. tauto. Qed.

(** What [New] returns on success: the cell holds Offline and the stream
    is nil. *)
Lemma New_initial id m c cluster (e : Environment) err :
  New id m c cluster = (Some e, err) ->
  State e = ProcessOfflineState /\ stream e = None /\ Events e = [].
Proof.
  unfold New. destruct cluster as [cfg cli | err']; intros H.
  - injection H as <- _. repeat split.
  - discriminate H.
Qed.

(** [SetState] panics on the struct it was given, or returns with its
    argument, one of the four statuses, in the cell. *)
Lemma SetState_outcome (s : string) (e : Environment) :
  (~ is_status s /\ exists msg, SetState s e = Panicked msg e) \/
  (is_status s /\ exists e', SetState s e = Returned tt e' /\ State e' = s).
Proof.
  destruct (is_status_dec s) as [Hs | Hs].
  - right. split; [exact Hs |].
    destruct (string_dec (State e) s) as [E | N].
    + exists e. split; [| exact E].
      unfold SetState. rewrite (guard_of_status s Hs).
      unfold bind, gets, ret. rewrite E, String.eqb_refl. reflexivity.
    + eexists. rewrite (SetState_unfold_changed s e Hs N).
      split; reflexivity.
  - left. split; [exact Hs |]. exists (invalid_state_message s).
    unfold SetState. rewrite (guard_of_other s Hs). reflexivity.
Qed.

(** The cell after a call holds what it held before, unless the call is a
    [SetState]. *)
Lemma run_keeps_st (c : Call) (e : Environment) :
  (forall s, c <> CallSetState s) -> st (final (run c e)) = st e.
Proof.
  intros H.
  destruct c as [| | h | | | | ctx | | | cfg | i | | s | f];
    try reflexivity; try (cbn [run]; locks e; fail).
  exfalso. apply (H s). reflexivity.
Qed.

Lemma run_keeps_status (c : Call) (e : Environment) :
  is_status (State e) -> is_status (State (final (run c e))).
Proof.
  intros Hinv.
  destruct c as [| | h | | | | ctx | | | cfg | i | | s | f];
    try (unfold State; rewrite run_keeps_st;
         [exact Hinv | intros s'; discriminate]).
  cbn [run].
  destruct (SetState_outcome s e) as [[_ [msg H]] | [Hs [e' [H He']]]];
    rewrite H; cbn [final].
  - exact Hinv.
  - rewrite He'. exact Hs.
Qed.

Lemma reachable_status (e : Environment) :
  reachable e -> is_status (State e).
Proof.
  induction 1 as [id m c cluster e err HNew | e c _ IH].
  - destruct (New_initial _ _ _ _ _ _ HNew) as [-> _].
    apply ProcessOfflineState_is_status.
  - apply run_keeps_status. exact IH.
Qed.

(** C8. The stored status is one of the four in every reachable struct:
    [New] starts with Offline in the cell and a nil stream; [SetState]
    either panics, leaving the struct as given, or returns with its
    argument, one of the four, stored; no other call changes the cell; so
    [State()] on a reachable struct is one of the four. *)
Theorem status_invariant :
  (forall id m c cluster e err,
     New id m c cluster = (Some e, err) ->
     State e = ProcessOfflineState /\ stream e = None) /\
  (forall s e,
     (~ is_status s /\ exists msg, SetState s e = Panicked msg e) \/
     (is_status s /\
      exists e', SetState s e = Returned tt e' /\ State e' = s)) /\
  (forall c e, (forall s, c <> CallSetState s) ->
     st (final (run c e)) = st e) /\
  (forall e, reachable e -> is_status (State e)).
Proof.
  split; [| split; [| split]].
  - intros id m c cluster e err H.
    destruct (New_initial _ _ _ _ _ _ H) as [H1 [H2 _]]. now split.
  - apply SetState_outcome.
  - apply run_keeps_st.
  - apply reachable_status.
Qed.


(** [SetState] touches the cell and the bus only. *)
Lemma SetState_keeps_others (s : string) (e : Environment) :
  stream (final (SetState s e)) = stream e /\
  mu (final (SetState s e)) = mu e /\
  meta (final (SetState s e)) = meta e /\
  logCallback (final (SetState s e)) = logCallback e.
Proof.
  unfold SetState, bind, gets, modify, ret, panic.
  destruct (negb (s =? ProcessOfflineState)%string &&
            negb (s =? ProcessStartingState)%string &&
            negb (s =? ProcessRunningState)%string &&
            negb (s =? ProcessStoppingState)%string);
    [repeat split |].
  destruct (negb (State e =? s)%string); repeat split.
Qed.

(** A struct whose mutex is free is the struct with a free mutex. *)
Lemma with_mu_Unlocked (e : Environment) :
  mu e = Unlocked -> with_mu Unlocked e = e.
Proof. destruct e. cbn. intros ->. reflexivity. Qed.








Lemma run_keeps_nil_meta (c : Call) (e : Environment) :
  meta e = None -> meta (final (run c e)) = None.
Proof.
  intros Hm.
  destruct c as [| | h | | | | ctx | | | cfg | i | | s | f];
    try exact Hm;
    try (cbn [run]; unfold_locked;
         destruct (mu e) as [[|] [| ?]]; cbn; rewrite ?Hm; cbn;
         first [exact Hm | reflexivity]).
  cbn [run]. destruct (SetState_keeps_others s e) as [_ [_ [-> _]]].
  exact Hm.
Qed.




End Lifecycle.

Lemma status_invariant_witness :
  @is_status Stub.constants
    (State
       (runs (imports := Stub.imports) (constants := Stub.constants)
          Stub.start_up
          (Stub.env "offline" Stub.not_found))).
Proof.
  apply (proj2 (proj2 (proj2
           (@status_invariant Stub.imports Stub.constants)))).
  unfold Stub.start_up. cbn [runs]. do 4 apply reachable_call.
  apply (reachable_New (imports := Stub.imports)
           "7e2c" None None (Stub.cluster Stub.not_found) _ None).
  reflexivity.
Defined.


(** * Further properties of the queries *)

Section QueryRelations.

Context {imports : Imports} {constants : Constants}.

(** Under [context.Background()] a lookup is the backend's answer. *)
Lemma Get_Background (cli : Clientset) (ns name : string) :
  Get cli context_Background ns name = PodsGet cli ns name.
Proof. unfold Get, under. rewrite Background_done. reflexivity. Qed.

(** X1. An error that [Exists] returns is the lookup's own error, it is not
    a not-found error, and the boolean beside it is false. *)
Theorem Exists_error_origin (e : Environment) (b : bool) (err : error) :
  Exists e = (b, Some err) ->
  b = false /\ lookup e = Failed err /\ IsNotFound err = false.
Proof.
  unfold lookup, lookup_in, Exists.
  destruct (Get (client e) context_Background Namespace (Id e)) as [c | err'].
  - intros H. discriminate H.
  - destruct (IsNotFound err') eqn:Hnf; intros H.
    + discriminate H.
    + injection H as <- <-. repeat split. exact Hnf.
Qed.

(** X2. When [ExitState] returns an error, it is the lookup's own error,
    not a not-found error, and the other two results are 0 and false. *)
Theorem ExitState_error_origin (e : Environment) (err : error) :
  exit_error (ExitState e) = Some err ->
  ExitState e = (0, false, Some err) /\
  lookup e = Failed err /\ IsNotFound err = false.
Proof.
  unfold lookup, lookup_in, exit_error, ExitState.
  destruct (Get (client e) context_Background Namespace (Id e)) as [c | err'].
  - destruct (v1.ContainerStatuses (v1.Status c)) as [| cs0 rest];
      [intros H; discriminate H |].
    destruct (v1.Terminated (v1.State cs0)) as [t |];
      [| intros H; discriminate H].
    destruct (v1.ExitCode t =? 137); intros H; discriminate H.
  - destruct (IsNotFound err') eqn:Hnf; cbn; intros H.
    + discriminate H.
    + injection H as <-. repeat split. exact Hnf.
Qed.

(** X3. On the same backend answer [Exists] and [ExitState] return the same
    error component: both nil, or both the lookup's error. *)
Theorem Exists_ExitState_same_error (e : Environment) :
  snd (Exists e) = exit_error (ExitState e).
Proof.
  unfold exit_error, Exists, ExitState.
  destruct (Get (client e) context_Background Namespace (Id e)) as [c | err].
  - destruct (v1.ContainerStatuses (v1.Status c)) as [| cs0 rest];
      [reflexivity |].
    destruct (v1.Terminated (v1.State cs0)) as [t |]; [| reflexivity].
    destruct (v1.ExitCode t =? 137); reflexivity.
  - destruct (IsNotFound err); reflexivity.
Qed.

(** X4. On the same backend answer, a pod that [IsRunning] reports running
    is one that [Exists] reports present, and [ExitState] returns no error
    for it. *)
Theorem IsRunning_implies_Exists (ctx : context_Context) (e : Environment) :
  IsRunning ctx e = (true, None) ->
  Exists e = (true, None) /\ exit_error (ExitState e) = None.
Proof.
  unfold IsRunning, Exists, exit_error, ExitState.
  rewrite Get_Background. unfold Get, under.
  destruct (context_done ctx) as [cerr |];
    [intros H; discriminate H |].
  destruct (PodsGet (client e) Namespace (Id e)) as [c | err];
    [intros _ | intros H; discriminate H].
  split; [reflexivity |].
  destruct (v1.ContainerStatuses (v1.Status c)) as [| cs0 rest];
    [reflexivity |].
  destruct (v1.Terminated (v1.State cs0)) as [t |]; [| reflexivity].
  destruct (v1.ExitCode t =? 137); reflexivity.
Qed.

(** X5. On the same backend answer, a pod that [Exists] reports absent
    without error makes [ExitState] return its default [(1, false, nil)]
    and makes [IsRunning] fail: with the error of its context when that is
    done, and with the backend's not-found error otherwise. *)
Theorem Exists_absent (ctx : context_Context) (e : Environment) :
  Exists e = (false, None) ->
  (exists err, IsRunning ctx e = (false, Some err) /\
               (context_done ctx = Some err \/
                (context_done ctx = None /\ IsNotFound err = true))) /\
  ExitState e = (1, false, None).
Proof.
  unfold Exists, IsRunning, ExitState.
  rewrite Get_Background. unfold Get, under.
  destruct (PodsGet (client e) Namespace (Id e)) as [c | err].
  - intros H. discriminate H.
  - destruct (IsNotFound err) eqn:Hnf; intros H; [| discriminate H].
    split; [| reflexivity].
    destruct (context_done ctx) as [cerr |].
    + exists cerr. split; [reflexivity | left; reflexivity].
    + exists err. split; [reflexivity |]. right. split;
        [reflexivity | exact Hnf].
Qed.

(** X6. The exit code that [ExitState] returns is a [uint32]: it lies in
    [0, 2^32), whatever the backend answers. *)
Theorem ExitState_code_range (e : Environment) :
  0 <= exit_code (ExitState e) < 2 ^ 32.
Proof.
  unfold exit_code, ExitState.
  destruct (Get (client e) context_Background Namespace (Id e)) as [c | err].
  - destruct (v1.ContainerStatuses (v1.Status c)) as [| cs0 rest];
      [cbn; lia |].
    destruct (v1.Terminated (v1.State cs0)) as [t |]; [| cbn; lia].
    destruct (v1.ExitCode t =? 137); cbn [fst]; [lia |].
    apply uint32_range.
  - destruct (IsNotFound err); cbn; lia.
Qed.

(** X7. When the exit codes of the answer fit [int32], [ExitState] sets the
    OOM flag exactly when the exit code it returns is 137; a set flag always
    comes with exit code 137 and a nil error. *)
Theorem ExitState_oom_iff_137 (e : Environment) :
  exit_codes_int32 (lookup e) ->
  (oom_killed (ExitState e) = true <-> exit_code (ExitState e) = 137) /\
  (oom_killed (ExitState e) = true -> exit_error (ExitState e) = None).
Proof.
  unfold lookup, lookup_in, exit_codes_int32, oom_killed, exit_code, exit_error,
    ExitState.
  destruct (Get (client e) context_Background Namespace (Id e)) as [c | err].
  - destruct (v1.ContainerStatuses (v1.Status c)) as [| cs0 rest].
    + intros _. cbn. repeat split; intros H; discriminate H.
    + intros Hall. inversion Hall as [| ? ? H0 _]; subst. clear Hall.
      destruct (v1.Terminated (v1.State cs0)) as [t |].
      * destruct (Z.eqb_spec (v1.ExitCode t) 137) as [E | N]; cbn.
        -- repeat split.
        -- repeat split; try (intros H; discriminate H).
           intros H. exfalso. apply N.
           destruct (Z_lt_le_dec (v1.ExitCode t) 0) as [Hneg | Hpos].
           ++ rewrite (uint32_neg _ H0 Hneg) in H.
              unfold is_int32 in H0. lia.
           ++ rewrite (uint32_nonneg _ H0 Hpos) in H. exact H.
      * cbn. repeat split; intros H; discriminate H.
  - intros _. destruct (IsNotFound err); cbn;
      repeat split; intros H; discriminate H.
Qed.

End QueryRelations.

Lemma Exists_error_origin_witness :
  @lookup Stub.imports Stub.constants (Stub.env "running" Stub.timed_out)
  = Stub.timed_out.
Proof.
  apply (@Exists_error_origin Stub.imports Stub.constants
           (Stub.env "running" Stub.timed_out) false Stub.Timeout).
  reflexivity.
Defined.

Lemma ExitState_error_origin_witness :
  @ExitState Stub.imports Stub.constants (Stub.env "running" Stub.timed_out)
  = (0, false, Some Stub.Timeout).
Proof.
  apply (@ExitState_error_origin Stub.imports Stub.constants
           (Stub.env "running" Stub.timed_out) Stub.Timeout).
  reflexivity.
Defined.

Lemma IsRunning_implies_Exists_witness :
  @Exists Stub.imports Stub.constants
    (Stub.env "running" (Found (Stub.pod "Running" [Stub.running])))
  = (true, None).
Proof.
  apply (@IsRunning_implies_Exists Stub.imports Stub.constants Stub.live
           (Stub.env "running" (Found (Stub.pod "Running" [Stub.running])))).
  reflexivity.
Defined.

Lemma Exists_absent_witness :
  (exists err,
     @IsRunning Stub.imports Stub.constants Stub.cancelled
       (Stub.env "running" Stub.not_found)
     = (false, Some err) /\
     (@context_done Stub.imports Stub.cancelled = Some err \/
      (@context_done Stub.imports Stub.cancelled = None /\
       @IsNotFound Stub.imports err = true))) /\
  @ExitState Stub.imports Stub.constants (Stub.env "running" Stub.not_found)
  = (1, false, None).
Proof.
  apply (@Exists_absent Stub.imports Stub.constants Stub.cancelled
           (Stub.env "running" Stub.not_found)).
  reflexivity.
Defined.

Lemma ExitState_oom_iff_137_witness :
  @oom_killed Stub.imports
    (@ExitState Stub.imports Stub.constants
       (Stub.env "running"
          (Found (Stub.pod "Failed" [Stub.exited 137; Stub.running]))))
  = true.
Proof.
  apply (@ExitState_oom_iff_137 Stub.imports Stub.constants
           (Stub.env "running"
              (Found (Stub.pod "Failed" [Stub.exited 137; Stub.running])))).
  - cbn. repeat constructor; unfold is_int32; cbn; lia.
  - reflexivity.
Defined.

(** * Further properties of the state cell and the bus *)

Section Transitions.

Context {imports : Imports} {constants : Constants}.

Lemma is_status_b_true (s : string) : is_status s -> is_status_b s = true.
Proof.
  unfold is_status, is_status_b. intros H.
  apply existsb_exists. exists s. split; [exact H | apply String.eqb_refl].
Qed.

Lemma is_status_b_false (s : string) : ~ is_status s -> is_status_b s = false.
Proof.
  unfold is_status, is_status_b. intros H.
  destruct (existsb (String.eqb s) statuses) eqn:E; [| reflexivity].
  apply existsb_exists in E. destruct E as [x [Hin Hx]].
  apply String.eqb_eq in Hx. subst x. contradiction.
Qed.

(** The struct [SetState] leaves behind: the one it was given, or that one
    with the new status stored and one delivery added. *)
Lemma SetState_final (s : string) (e : Environment) :
  ((~ is_status s \/ State e = s) /\ final (SetState s e) = e) \/
  (is_status s /\ State e <> s /\
   final (SetState s e) =
   with_emitter
     (Events e ++
        [{| topic := StateChangeEvent; payload := s; observed := s |}])%list
     (with_st (Store s (st e)) e)).
Proof.
  destruct (is_status_dec s) as [Hs | Hs].
  - destruct (string_dec (State e) s) as [E | N].
    + left. split; [right; exact E |].
      unfold SetState. rewrite (guard_of_status s Hs).
      unfold bind, gets, ret. rewrite E, String.eqb_refl. reflexivity.
    + right. split; [exact Hs |]. split; [exact N |].
      rewrite (SetState_unfold_changed s e Hs N). reflexivity.
  - left. split; [left; exact Hs |].
    unfold SetState. rewrite (guard_of_other s Hs). reflexivity.
Qed.

Lemma run_keeps_emitter (c : Call) (e : Environment) :
  sets_state c = false -> emitter (final (run c e)) = emitter e.
Proof.
  destruct c as [| | h | | | | ctx | | | cfg | i | | s | f];
    intros H; try reflexivity; try (cbn [run]; locks e; fail).
  discriminate H.
Qed.

Lemma run_keeps_cell (c : Call) (e : Environment) :
  sets_state c = false -> st (final (run c e)) = st e.
Proof.
  intros H. apply run_keeps_st. intros s ->. discriminate H.
Qed.

Lemma last_snoc (l : list string) (x d : string) :
  last (l ++ [x]) d = x.
Proof. apply last_last. Qed.

Lemma last_cons_any (y : string) (l : list string) (a b : string) :
  last (y :: l) a = last (y :: l) b.
Proof.
  revert y. induction l as [| z l IH]; intros y; [reflexivity |].
  change (last (z :: l) a = last (z :: l) b). apply IH.
Qed.

Lemma last_cons_prev (y : string) (l : list string) (prev : string) :
  last (y :: l) prev = last l y.
Proof.
  destruct l as [| z l]; [reflexivity |].
  change (last (z :: l) prev = last (z :: l) y). apply last_cons_any.
Qed.

Lemma no_stutter_snoc (prev x : string) (l : list string) :
  no_stutter prev l -> last l prev <> x -> no_stutter prev (l ++ [x]).
Proof.
  revert prev. induction l as [| y l IH]; intros prev Hl Hx.
  - cbn. split; [exact Hx | exact I].
  - cbn in Hl. destruct Hl as [Hy Hl]. cbn [app no_stutter].
    split; [exact Hy |]. apply IH; [exact Hl |].
    rewrite <- (last_cons_prev y l prev). exact Hx.
Qed.

Lemma run_keeps_bus_follows_cell (c : Call) (e : Environment) :
  bus_follows_cell e -> bus_follows_cell (final (run c e)).
Proof.
  intros Hinv. destruct (sets_state c) eqn:Hc.
  - destruct c; try discriminate Hc. cbn [run].
    destruct (SetState_final state e) as [[_ ->] | [Hs [N ->]]];
      [exact Hinv |].
    destruct Hinv as [Hall [Hlast Hns]].
    unfold bus_follows_cell, history, Events, State. cbn.
    rewrite map_app. cbn. repeat split.
    + apply Forall_app. split; [exact Hall |].
      constructor; [| constructor]. repeat split. exact Hs.
    + symmetry. apply last_snoc.
    + apply no_stutter_snoc; [exact Hns |].
      unfold history, Events in Hlast. rewrite <- Hlast. exact N.
  - unfold bus_follows_cell, history, Events, State in *.
    rewrite (run_keeps_emitter c e Hc), (run_keeps_cell c e Hc).
    exact Hinv.
Qed.

Lemma reachable_bus_follows_cell (e : Environment) :
  reachable e -> bus_follows_cell e.
Proof.
  induction 1 as [id m c cluster e err HNew | e c _ IH].
  - destruct (New_initial _ _ _ _ _ _ HNew) as [Hst [_ Hev]].
    unfold bus_follows_cell, history. rewrite Hev, Hst. cbn.
    repeat split. constructor.
  - apply run_keeps_bus_follows_cell. exact IH.
Qed.

(** X8. Every delivery on the bus of a reachable struct is a state change:
    its topic is [StateChangeEvent], its payload is one of the four
    statuses, and its listener read that same status from [State()]. *)
Theorem reachable_deliveries (e : Environment) :
  reachable e -> Forall state_change (Events e).
Proof.
  intros H. apply (reachable_bus_follows_cell e H).
Qed.

(** X9. In a reachable struct [State()] is the payload of the last delivery
    on the bus, or Offline when nothing was delivered, and no delivery
    repeats the status before it: the first is not Offline and any two
    consecutive payloads differ. *)
Theorem reachable_state_is_last_event (e : Environment) :
  reachable e ->
  State e = last (history e) ProcessOfflineState /\
  no_stutter ProcessOfflineState (history e).
Proof.
  intros H. apply (reachable_bus_follows_cell e H).
Qed.

(** X10. Calling [SetState] twice in a row with the same argument is the
    same as calling it once: same outcome, same struct, so at most one
    delivery. *)
Theorem SetState_twice (s : string) (e : Environment) :
  bind (SetState s) (fun _ => SetState s) e = SetState s e.
Proof.
  unfold bind.
  destruct (SetState_outcome s e) as [[_ [msg H]] | [Hs [e' [H He']]]];
    rewrite H; [reflexivity |].
  unfold SetState. rewrite (guard_of_status s Hs).
  unfold bind, gets, ret. rewrite He', String.eqb_refl. reflexivity.
Qed.

(** X11. The first [SetState] with Offline on a struct fresh from [New]
    changes nothing and publishes nothing; with another of the four
    statuses it makes the first delivery on the bus. *)
Theorem New_then_SetState id m c cluster (e : Environment) err (s : string) :
  New id m c cluster = (Some e, err) ->
  is_status s ->
  (s = ProcessOfflineState -> SetState s e = Returned tt e) /\
  (s <> ProcessOfflineState ->
   history (final (SetState s e)) = [s] /\ State (final (SetState s e)) = s).
Proof.
  intros HNew Hs.
  destruct (New_initial _ _ _ _ _ _ HNew) as [Hst [_ Hev]].
  split.
  - intros ->. unfold SetState.
    rewrite (guard_of_status _ ProcessOfflineState_is_status).
    unfold bind, gets, ret. rewrite Hst, String.eqb_refl. reflexivity.
  - intros N.
    assert (N' : State e <> s) by (rewrite Hst; congruence).
    rewrite (SetState_unfold_changed s e Hs N').
    unfold history, Events in *. cbn. rewrite Hev. split; reflexivity.
Qed.

End Transitions.

Lemma reachable_deliveries_witness :
  Forall (@state_change Stub.constants)
    (Events (runs (imports := Stub.imports) (constants := Stub.constants)
               Stub.restart (Stub.env "offline" Stub.not_found))).
Proof.
  apply (@reachable_deliveries Stub.imports Stub.constants).
  unfold Stub.restart. cbn [runs]. do 7 apply reachable_call.
  apply (reachable_New (imports := Stub.imports)
           "7e2c" None None (Stub.cluster Stub.not_found) _ None).
  reflexivity.
Defined.

Lemma reachable_state_is_last_event_witness :
  history (runs (imports := Stub.imports) (constants := Stub.constants)
             Stub.restart (Stub.env "offline" Stub.not_found))
  = ["starting"; "running"; "stopping"; "offline"; "starting"] /\
  State (runs (imports := Stub.imports) (constants := Stub.constants)
           Stub.restart (Stub.env "offline" Stub.not_found))
  = "starting" /\
  @no_stutter "offline"
    (history (runs (imports := Stub.imports) (constants := Stub.constants)
                Stub.restart (Stub.env "offline" Stub.not_found))).
Proof.
  split; [reflexivity |]. split; [reflexivity |].
  apply (@reachable_state_is_last_event Stub.imports Stub.constants).
  unfold Stub.restart. cbn [runs]. do 7 apply reachable_call.
  apply (reachable_New (imports := Stub.imports)
           "7e2c" None None (Stub.cluster Stub.not_found) _ None).
  reflexivity.
Defined.

Lemma New_then_SetState_witness :
  @SetState Stub.imports Stub.constants "offline"
    (Stub.env "offline" Stub.not_found)
  = Returned tt (Stub.env "offline" Stub.not_found).
Proof.
  apply (@New_then_SetState Stub.imports Stub.constants
           "7e2c" None None (Stub.cluster Stub.not_found)
           (Stub.env "offline" Stub.not_found) None "offline").
  - reflexivity.
  - unfold is_status, statuses. simpl. tauto.
  - reflexivity.
Defined.

(** * Further properties of call sequences *)

Section Frames.

Context {imports : Imports} {constants : Constants}.

(** The fields no method assigns. *)
Lemma run_fixed_fields (c : Call) (e : Environment) :
  Id (final (run c e)) = Id e /\
  client (final (run c e)) = client e /\
  config (final (run c e)) = config e /\
  Configuration (final (run c e)) = Configuration e /\
  stats (final (run c e)) = stats e.
Proof.
  destruct c as [| | h | | | | ctx | | | cfg | i | | s | f];
    try (repeat split; reflexivity);
    try (cbn [run]; unfold_locked;
         destruct (mu e) as [[|] [| ?]]; cbn;
         try (repeat split; reflexivity);
         destruct (meta e); repeat split; reflexivity).
  cbn [run].
  destruct (SetState_final s e) as [[_ ->] | [_ [_ ->]]];
    repeat split; reflexivity.
Qed.

(** [Config], when it returns, returns the configuration pointer of the
    struct. *)
Lemma Config_returns (e e' : Environment)
    (r : option environment_Configuration) :
  Config e = Returned r e' -> r = Configuration e.
Proof.
  unfold_locked. destruct (mu e) as [[|] [| ?]]; cbn; intros H;
    try discriminate H; injection H as <- _; reflexivity.
Qed.

Lemma runs_fixed_fields (cs : list Call) (e : Environment) :
  Id (runs cs e) = Id e /\
  client (runs cs e) = client e /\
  config (runs cs e) = config e /\
  Configuration (runs cs e) = Configuration e /\
  stats (runs cs e) = stats e.
Proof.
  revert e. induction cs as [| c cs IH]; intros e.
  - repeat split; reflexivity.
  - cbn [runs].
    destruct (IH (final (run c e))) as [H1 [H2 [H3 [H4 H5]]]].
    destruct (run_fixed_fields c e) as [G1 [G2 [G3 [G4 G5]]]].
    rewrite H1, H2, H3, H4, H5, G1, G2, G3, G4, G5.
    repeat split; reflexivity.
Qed.

(** X12. No sequence of calls changes the identifier, the clientset, the
    rest configuration, the configuration pointer or the stats stream of the
    struct; [Config()], whenever it returns, returns the pointer the struct
    held before the sequence. *)
Theorem runs_keeps_identity (cs : list Call) (e : Environment) :
  Id (runs cs e) = Id e /\
  client (runs cs e) = client e /\
  config (runs cs e) = config e /\
  Configuration (runs cs e) = Configuration e /\
  stats (runs cs e) = stats e /\
  (forall r e', Config (runs cs e) = Returned r e' -> r = Configuration e).
Proof.
  destruct (runs_fixed_fields cs e) as [H1 [H2 [H3 [H4 H5]]]].
  repeat split; try assumption.
  intros r e' H. rewrite <- H4. apply (Config_returns _ e'). exact H.
Qed.

(** X13. What [Exists], [IsRunning] and [ExitState] return depends on the
    backend only: after any sequence of calls on the struct they return
    what they returned before it, the backend answering the same. *)
Theorem queries_unaffected (ctx : context_Context) (cs : list Call)
    (e : Environment) :
  Exists (runs cs e) = Exists e /\
  IsRunning ctx (runs cs e) = IsRunning ctx e /\
  ExitState (runs cs e) = ExitState e /\
  GetServiceDetails (runs cs e) = GetServiceDetails e.
Proof.
  destruct (runs_fixed_fields cs e) as [H1 [H2 _]].
  unfold Exists, IsRunning, ExitState, GetServiceDetails.
  rewrite H1, H2. repeat split; reflexivity.
Qed.

(** X14. A call leaves the metadata alone unless it is [SetImage] or
    [SetStopConfiguration], the log callback unless it is [SetLogCallback],
    and the bus and the status unless it is [SetState]. *)
Theorem run_footprint (c : Call) (e : Environment) :
  (sets_meta c = false -> meta (final (run c e)) = meta e) /\
  (sets_logCallback c = false ->
   logCallback (final (run c e)) = logCallback e) /\
  (sets_state c = false ->
   Events (final (run c e)) = Events e /\
   State (final (run c e)) = State e).
Proof.
  split; [| split].
  - destruct c as [| | h | | | | ctx | | | cfg | i | | s | f];
      intros H; try reflexivity; try discriminate H;
      try (cbn [run]; locks e; fail).
    cbn [run]. apply SetState_keeps_others.
  - destruct c as [| | h | | | | ctx | | | cfg | i | | s | f];
      intros H; try reflexivity; try discriminate H;
      try (cbn [run]; locks e; fail).
    cbn [run]. apply SetState_keeps_others.
  - intros H. unfold Events, State.
    rewrite (run_keeps_emitter c e H), (run_keeps_cell c e H).
    split; reflexivity.
Qed.

Lemma run_published (c : Call) (e : Environment) (cs : list Call) :
  (history e ++ published (State e) (c :: cs))%list =
  (history (final (run c e)) ++ published (State (final (run c e))) cs)%list
  /\
  last (published (State e) (c :: cs)) (State e) =
  last (published (State (final (run c e))) cs) (State (final (run c e))).
Proof.
  destruct (sets_state c) eqn:Hc.
  - destruct c as [| | h | | | | ctx | | | cfg | i | | s | f];
      try discriminate Hc.
    cbn [run published].
    destruct (SetState_final s e) as [[Hno ->] | [Hs [N ->]]].
    + assert (G : is_status_b s && negb (State e =? s)%string = false).
      { destruct Hno as [Hno | Heq].
        - rewrite (is_status_b_false s Hno). reflexivity.
        - rewrite Heq, String.eqb_refl. apply andb_false_r. }
      rewrite G. split; reflexivity.
    + rewrite (is_status_b_true s Hs).
      destruct (String.eqb_spec (State e) s) as [E | _]; [contradiction |].
      cbn [andb negb]. unfold history, Events, State. cbn.
      rewrite map_app, <- app_assoc. cbn. split; [reflexivity |].
      apply last_cons_prev.
  - unfold history, Events, State.
    rewrite (run_keeps_emitter c e Hc), (run_keeps_cell c e Hc).
    destruct c; try discriminate Hc; split; reflexivity.
Qed.

(** X15. The payloads a sequence of calls adds to the bus are exactly the
    valid arguments of its [SetState] calls that differ from the status
    stored when the call is made, in call order, and [State()] afterwards
    is the last of them, or the status before the sequence when there is
    none. *)
Theorem runs_published (cs : list Call) (e : Environment) :
  history (runs cs e) = (history e ++ published (State e) cs)%list /\
  State (runs cs e) = last (published (State e) cs) (State e).
Proof.
  revert e. induction cs as [| c cs IH]; intros e.
  - cbn. rewrite app_nil_r. split; reflexivity.
  - cbn [runs]. destruct (IH (final (run c e))) as [H1 H2].
    destruct (run_published c e cs) as [G1 G2].
    rewrite H1, H2, G1, G2. split; reflexivity.
Qed.

(** X16. A sequence of calls publishes at most one event for each
    [SetState] call in it, and only adds to the bus: what was delivered
    before stays, in place. *)
Theorem runs_bus_grows (cs : list Call) (e : Environment) :
  exists more : Bus,
    Events (runs cs e) = (Events e ++ more)%list /\
    (length more <= count_SetState cs)%nat.
Proof.
  revert e. induction cs as [| c cs IH]; intros e.
  - exists []. cbn. rewrite app_nil_r. split; [reflexivity | lia].
  - cbn [runs]. destruct (IH (final (run c e))) as [more [H Hlen]].
    destruct (sets_state c) eqn:Hc.
    + destruct c as [| | h | | | | ctx | | | cfg | i | | s | f];
        try discriminate Hc.
      cbn [run count_SetState] in *.
      destruct (SetState_final s e) as [[_ E] | [_ [_ E]]];
        rewrite E in H |- *.
      * exists more. split; [exact H | lia].
      * eexists. rewrite H. unfold Events at 1. cbn.
        rewrite <- app_assoc. split; [reflexivity |]. cbn. lia.
    + exists more. unfold Events in *.
      rewrite (run_keeps_emitter c e Hc) in H. split; [exact H |].
      destruct c; try discriminate Hc; exact Hlen.
Qed.

(** X17. On a struct whose mutex is free and whose metadata pointer is
    non-nil, [SetImage] and [SetStopConfiguration] commute: in either order
    they return, and leave the struct with the mutex free and the metadata
    holding the new image and the new stop configuration. *)
Theorem SetImage_SetStopConfiguration_commute (i : string)
    (c : remote_ProcessStopConfiguration) (e : Environment) :
  mu e = Unlocked -> meta e <> None ->
  bind (SetImage i) (fun _ => SetStopConfiguration c) e =
  Returned tt (with_meta (Some {| Image := i; Stop := c |}) e) /\
  bind (SetStopConfiguration c) (fun _ => SetImage i) e =
  Returned tt (with_meta (Some {| Image := i; Stop := c |}) e).
Proof.
  intros Hmu Hm. unfold_locked. rewrite Hmu. cbn.
  destruct (meta e) as [md |] eqn:E; [| contradiction]. cbn.
  destruct e. cbn in *. subst. split; reflexivity.
Qed.

Lemma runs_keeps_nil_meta (cs : list Call) (e : Environment) :
  meta e = None -> meta (runs cs e) = None.
Proof.
  revert e. induction cs as [| c cs IH]; intros e Hm; [exact Hm |].
  cbn [runs]. apply IH. apply run_keeps_nil_meta. exact Hm.
Qed.

(** X18. [New] takes a nil metadata pointer as it comes. On the struct it
    returns, [SetImage] panics on the nil dereference and, its unlock being
    deferred, leaves the struct as it was; [SetStopConfiguration] panics on
    the nil dereference before its unlock and leaves the mutex held by a
    writer, after which every call of a method that takes the mutex waits
    for ever; and no sequence of calls makes the pointer non-nil. *)
Theorem nil_metadata id c cluster (e : Environment) err :
  New id None c cluster = (Some e, err) ->
  (forall i, SetImage i e = Panicked nil_dereference e) /\
  (forall cfg,
     SetStopConfiguration cfg e =
     Panicked nil_dereference (with_mu WriteLocked e)) /\
  (forall k, takes_mu k = true ->
     run k (with_mu WriteLocked e) = Blocked (with_mu WriteLocked e)) /\
  (forall cs, meta (runs cs e) = None).
Proof.
  intros HNew.
  assert (Hm : meta e = None).
  { revert HNew. unfold New. destruct cluster; intros H;
      [injection H as <- _; reflexivity | discriminate H]. }
  split; [| split; [| split]].
  - intros i. revert HNew. unfold New. destruct cluster; intros H;
      [injection H as <- _; reflexivity | discriminate H].
  - intros cfg. revert HNew. unfold New. destruct cluster; intros H;
      [injection H as <- _; reflexivity | discriminate H].
  - intros k Hk.
    destruct k as [| | h | | | | ctx | | | cfg | i | | s | f];
      try discriminate Hk; reflexivity.
  - intros cs. apply runs_keeps_nil_meta. exact Hm.
Qed.

End Frames.

Lemma run_footprint_witness :
  meta (final (@run Stub.imports Stub.constants (CallSetState "running")
                 (Stub.env_with_meta "game:1" Stub.not_found)))
  = meta (Stub.env_with_meta "game:1" Stub.not_found).
Proof.
  apply (proj1 (@run_footprint Stub.imports Stub.constants
                  (CallSetState "running")
                  (Stub.env_with_meta "game:1" Stub.not_found))).
  reflexivity.
Defined.

Lemma SetImage_SetStopConfiguration_commute_witness :
  bind (@SetImage Stub.imports "game:2")
       (fun _ => @SetStopConfiguration Stub.imports Stub.stop)
       (Stub.env_with_meta "game:1" Stub.not_found)
  = Returned tt (Stub.env_with_meta "game:2" Stub.not_found) /\
  bind (@SetStopConfiguration Stub.imports Stub.stop)
       (fun _ => @SetImage Stub.imports "game:2")
       (Stub.env_with_meta "game:1" Stub.not_found)
  = Returned tt (Stub.env_with_meta "game:2" Stub.not_found).
Proof.
  apply (@SetImage_SetStopConfiguration_commute Stub.imports
           "game:2" Stub.stop
           (Stub.env_with_meta "game:1" Stub.not_found)).
  - reflexivity.
  - discriminate.
Defined.

Lemma nil_metadata_witness :
  @SetImage Stub.imports "game:2" (Stub.env "offline" Stub.not_found)
  = Panicked nil_dereference (Stub.env "offline" Stub.not_found) /\
  @SetStopConfiguration Stub.imports Stub.stop
    (Stub.env "offline" Stub.not_found)
  = Panicked nil_dereference
      (with_mu WriteLocked (Stub.env "offline" Stub.not_found)) /\
  @run Stub.imports Stub.constants (CallSetStream (Some Stub.handle))
    (with_mu WriteLocked (Stub.env "offline" Stub.not_found))
  = Blocked (with_mu WriteLocked (Stub.env "offline" Stub.not_found)).
Proof.
  destruct (@nil_metadata Stub.imports Stub.constants
              "7e2c" None (Stub.cluster Stub.not_found)
              (Stub.env "offline" Stub.not_found) None eq_refl)
    as [H1 [H2 [H3 _]]].
  split; [apply H1 |]. split; [apply H2 |]. apply H3. reflexivity.
Defined.
